(** * smtp2http: the message-processing pipeline of [smtp2http.py]

    A shallow embedding of [CustomMessageHandler] (sender authorization,
    subject and body decoding, recipient classification, webhook
    forwarding) together with the properties of the pipeline.

    Conventions of the model.
    - A Python [str] is a [string]; each character stands for the code
      point of the same number (0..255).  [bytes] is [list byte].
    - The two log files and the HTTP requests issued so far make up the
      [World]; a coroutine is a function from worlds to a result and a
      world ([Task]).  A raised exception is the result [Raise e]; the
      effects performed before the raise stay in the world.
    - The module globals [EMAIL_ENDPOINTS] and [ALLOWED_SENDERS], the
      codecs, the RFC 2047 word decoder of [email.header] and the remote
      HTTP servers are variables of the section [Pipeline].
    - The tasks of different messages interleave only where a POST is
      awaited; the statements below are about one task run on its own. *)

From Stdlib.Strings Require Import String Ascii Byte.
From Stdlib Require Import Decimal DecimalString.
From stdpp Require Import base option list strings gmap fin_maps.

Local Open Scope string_scope.

(** ** Python values and exceptions *)

(** The exceptions the pipeline can meet; [str(e)] is the carried text. *)
Inductive exn : Type :=
| TypeError (msg : string)
| AttributeError (msg : string)
| UnicodeDecodeError (msg : string)
| LookupError (msg : string)
| HeaderParseError (msg : string)
| RequestException (msg : string)
| OtherError (name msg : string).

Inductive result (A : Type) : Type :=
| OK (a : A)
| Raise (e : exn).
Arguments OK {A} a.
Arguments Raise {A} e.

Definition is_OK {A} (r : result A) : bool :=
  match r with OK _ => true | Raise _ => false end.

Definition rbind {A B} (r : result A) (k : A -> result B) : result B :=
  match r with
  | OK a => k a
  | Raise e => Raise e
  end.

(** [except requests.RequestException]: the class test of the handler. *)
Definition is_RequestException (e : exn) : bool :=
  match e with RequestException _ => true | _ => false end.

(** ** [str] operations *)

(** [str.lower()] on one code point below 256: the upper-case letters are
    A-Z, U+00C0-U+00D6 and U+00D8-U+00DE, each 32 below its lower case. *)
Definition lower_char (c : ascii) : ascii :=
  let n := nat_of_ascii c in
  if ((65 <=? n) && (n <=? 90) || (192 <=? n) && (n <=? 214)
      || (216 <=? n) && (n <=? 222))%nat
  then ascii_of_nat (n + 32) else c.

Fixpoint lower (s : string) : string :=
  match s with
  | EmptyString => EmptyString
  | String c s' => String (lower_char c) (lower s')
  end.

(** [sep.join(l)] *)
Definition join (sep : string) (l : list string) : string :=
  String.concat sep l.

(** [str(n)] for a non-negative [int]. *)
Definition str_of_nat (n : nat) : string :=
  NilEmpty.string_of_uint (Nat.to_uint n).

(** [f"{v}"] for a value that is a [str] or [None]. *)
Definition format_opt (v : option string) : string :=
  match v with
  | Some s => s
  | None => "None"
  end.

(** [x in l] for a list [l] of [str]; [None] equals no [str]. *)
Definition py_in (x : option string) (l : list string) : bool :=
  match x with
  | Some s => existsb (String.eqb s) l
  | None => false
  end.

(** Truth value of a [str]: only the empty string is false. *)
Definition truthy (s : string) : bool :=
  match s with
  | EmptyString => false
  | String _ _ => true
  end.

(** ** [email.header.decode_header] *)

(** [ecre], the encoded-word pattern of [email.header]:
    [=\?[^?]*?\?[qQbB]\?.*?\?=], where [.] matches all but a newline. *)
Definition is_qb (c : ascii) : bool :=
  match c with
  | "q" | "Q" | "b" | "B" => true
  | _ => false
  end%char.

(** [.*?\?=] at the head of [s] *)
Fixpoint ecre_close (s : string) : bool :=
  match s with
  | EmptyString => false
  | String c s' =>
      match c, s' with
      | "?"%char, String "="%char _ => true
      | _, _ => if Ascii.eqb c "010"%char then false else ecre_close s'
      end
  end.

(** [[^?]*?\?[qQbB]\?.*?\?=] at the head of [s] *)
Fixpoint ecre_charset (s : string) : bool :=
  match s with
  | EmptyString => false
  | String c s' =>
      if Ascii.eqb c "?"%char then
        match s' with
        | String e (String "?"%char t) => is_qb e && ecre_close t
        | _ => false
        end
      else ecre_charset s'
  end.

(** [ecre.search(s) is not None] *)
Fixpoint ecre_search (s : string) : bool :=
  match s with
  | EmptyString => false
  | String c s' =>
      match c, s' with
      | "="%char, String "?"%char t => ecre_charset t || ecre_search s'
      | _, _ => ecre_search s'
      end
  end.

(** One element of the list [decode_header] returns: the header itself
    (a [str]) when it holds no encoded word, [bytes] otherwise. *)
Inductive chunk : Type :=
| ChunkStr (s : string)
| ChunkBytes (b : list byte).

(** ** Messages (the part of [email.message.Message] the handler reads) *)

(** The messages are those the SMTP handler builds: parsed from the
    wire with the [compat32] policy.  There [message[name]] is [None]
    when the header is absent, a [str] holding the whole header value
    when the header is ASCII text (a To header that lists two addresses
    is one [str]), and an [email.header.Header] object when the header
    holds a raw 8-bit byte. *)

(** An [email.header.Header] object, given by the list [decode_header]
    returns for it: its chunks encoded to bytes, each with the name of
    its charset.  The parser's objects have one chunk, the raw bytes of
    the header, under the charset name 'unknown-8bit'. *)
Definition HeaderObject : Type := list (list byte * string).

(** A header value that is present. *)
Inductive HeaderValue : Type :=
| HeaderStr (s : string)
| HeaderObj (h : HeaderObject).

(** What [message['to']] can be. *)
Inductive ToValue : Type :=
| ToAbsent
| ToStr (s : string)
| ToHeader (h : HeaderObject).

(** What the handler reads of the headers.  The handler only compares
    and formats the From value, and a [Header] object does both through
    its [str]: [hdr_from] is that [str]. *)
Record Headers : Type := {
  hdr_from : option string;          (* str(message['from']), or None *)
  hdr_to : ToValue;                  (* message['to'] *)
  hdr_subject : option HeaderValue;  (* message['subject'] *)
  hdr_content_type : string;         (* get_content_type() *)
  hdr_charset : option string        (* get_content_charset(None) *)
}.

(** A message is a leaf with its transfer-decoded payload, or a container
    of sub-messages. *)
#[local] Set Warnings "-register-all".
Inductive Message : Type :=
| Single (h : Headers) (payload : list byte)
| Multipart (h : Headers) (parts : list Message).

Definition headers (m : Message) : Headers :=
  match m with
  | Single h _ => h
  | Multipart h _ => h
  end.

Definition is_multipart (m : Message) : bool :=
  match m with
  | Single _ _ => false
  | Multipart _ _ => true
  end.

(** [Message.walk()]: the message itself, then the walk of each sub-part
    in order. *)
Fixpoint walk (m : Message) : list Message :=
  match m with
  | Single _ _ => [m]
  | Multipart _ parts => m :: flat_map walk parts
  end.

Definition get_content_type (m : Message) : string :=
  hdr_content_type (headers m).

Definition get_content_charset (m : Message) (failobj : string) : string :=
  default failobj (hdr_charset (headers m)).

(** [get_payload(decode=True)]: [None] for a container. *)
Definition get_payload_decode (m : Message) : option (list byte) :=
  match m with
  | Single _ payload => Some payload
  | Multipart _ _ => None
  end.

(** The same message with its Subject header removed. *)
Definition without_subject (m : Message) : Message :=
  let strip h :=
    {| hdr_from := hdr_from h; hdr_to := hdr_to h; hdr_subject := None;
       hdr_content_type := hdr_content_type h; hdr_charset := hdr_charset h |} in
  match m with
  | Single h payload => Single (strip h) payload
  | Multipart h parts => Multipart (strip h) parts
  end.

(** ** The world a task acts on *)

Inductive Level : Type := INFO | ERROR.

(** [requests.post(url, json=payload)]; the JSON object keeps the order
    of the dict literal. *)
Record Request : Type := {
  url : string;
  json : list (string * string)
}.

(** What [requests.post] does: return a response, of which only the
    status code is read, or raise. *)
Inductive PostOutcome : Type :=
| Response (status_code : nat)
| PostRaises (e : exn).

Record World : Type := {
  known_log : list (Level * string);     (* known_emails.log *)
  unknown_log : list (Level * string);   (* unknown_emails.log *)
  http_calls : list Request              (* POSTs issued, oldest first *)
}.

Definition empty_world : World :=
  {| known_log := []; unknown_log := []; http_calls := [] |}.

(** A coroutine: state passing, with the exception outside the state. *)
Definition Task (A : Type) : Type := World -> result A * World.

Definition ret {A} (a : A) : Task A := fun w => (OK a, w).

Definition bind {A B} (m : Task A) (k : A -> Task B) : Task B :=
  fun w =>
    match m w with
    | (OK a, w') => k a w'
    | (Raise e, w') => (Raise e, w')
    end.

(** A pure computation that may raise. *)
Definition lift {A} (r : result A) : Task A := fun w => (r, w).

Notation "'let*' x ':=' m 'in' k" := (bind m (fun x => k))
  (at level 10, x name, m at level 100, k at level 200).
Notation "m ';;' k" := (bind m (fun _ => k))
  (at level 100, k at level 200, right associativity).

(** [for x in l: body(x)] *)
Fixpoint for_each {A} (l : list A) (body : A -> Task unit) : Task unit :=
  match l with
  | [] => ret tt
  | x :: l' => body x;; for_each l' body
  end.

Definition logger_known (lvl : Level) (msg : string) : Task unit :=
  fun w => (OK tt, {| known_log := known_log w ++ [(lvl, msg)];
                      unknown_log := unknown_log w;
                      http_calls := http_calls w |}).

Definition logger_unknown (lvl : Level) (msg : string) : Task unit :=
  fun w => (OK tt, {| known_log := known_log w;
                      unknown_log := unknown_log w ++ [(lvl, msg)];
                      http_calls := http_calls w |}).

(** [key in d] for a dict. *)
Definition dict_contains (d : gmap string string) (key : string) : bool :=
  match d !! key with
  | Some _ => true
  | None => false
  end.

(** The keys of a dict, as iterating over it yields them. *)
Definition dict_keys (d : gmap string string) : list string :=
  (map_to_list d).*1.

Section Pipeline.

(** The two module globals, read from [email_config.json]. *)
Variable EMAIL_ENDPOINTS : gmap string string.
Variable ALLOWED_SENDERS : list string.

(** [b.decode(encoding)], which is also [str(b, encoding)] on bytes. *)
Variable codec_decode : string -> list byte -> result string.

(** [decode_header] on a header that holds an encoded word: the decoded
    words with their charsets, all of them [bytes]. *)
Variable decode_words : string -> result (list (list byte * option string)).

(** The servers behind the endpoints: the outcome of the [n]-th POST of
    the run (counting from 0) for a given request. *)
Variable requests_post : nat -> Request -> PostOutcome.

Definition decode_header (header : HeaderValue)
  : result (list (chunk * option string)) :=
  match header with
  | HeaderObj h => OK (map (fun ch => (ChunkBytes ch.1, Some ch.2)) h)
  | HeaderStr header =>
      if ecre_search header then
        rbind (decode_words header)
              (fun ws => OK (map (fun w => (ChunkBytes w.1, w.2)) ws))
      else OK [(ChunkStr header, None)]
  end.

(** [str(object, encoding)]: decoding is for bytes only. *)
Definition py_str (object : chunk) (encoding : string) : result string :=
  match object with
  | ChunkStr _ => Raise (TypeError "decoding str is not supported")
  | ChunkBytes b => codec_decode encoding b
  end.

(** [charset or 'utf-8'] *)
Definition charset_or (charset : option string) (dflt : string) : string :=
  match charset with
  | Some c => if truthy c then c else dflt
  | None => dflt
  end.

(** [[str(t[0], t[1] or 'utf-8') for t in ts]] (line 124) *)
Fixpoint decode_chunks (ts : list (chunk * option string))
  : result (list string) :=
  match ts with
  | [] => OK []
  | t :: ts' =>
      rbind (py_str t.1 (charset_or t.2 "utf-8")) (fun s =>
      rbind (decode_chunks ts') (fun ss => OK (s :: ss)))
  end.

(** Lines 123-124: the subject decoder. *)
Definition decode_subject (message : Message) : result string :=
  let subject :=
    default (HeaderStr "No subject") (hdr_subject (headers message)) in
  rbind (decode_header subject) (fun ts =>
  rbind (decode_chunks ts) (fun ss => OK (join "" ss))).

(** [part.get_payload(decode=True).decode(part.get_content_charset('utf-8'))] *)
Definition decode_payload (part : Message) : result string :=
  match get_payload_decode part with
  | Some b => codec_decode (get_content_charset part "utf-8") b
  | None =>
      Raise (AttributeError "'NoneType' object has no attribute 'decode'")
  end.

(** [content_type in ["text/plain", "text/html"]] *)
Definition is_text_type (content_type : string) : bool :=
  String.eqb content_type "text/plain" || String.eqb content_type "text/html".

(** Lines 130-135: the loop over [message.walk()], with [content = ""]
    before it. *)
Fixpoint first_text_part (parts : list Message) : result string :=
  match parts with
  | [] => OK ""
  | part :: rest =>
      if is_text_type (get_content_type part) then decode_payload part
      else first_text_part rest
  end.

(** Lines 127-137: the content extractor. *)
Definition extract_content (message : Message) : result string :=
  if is_multipart message then first_text_part (walk message)
  else decode_payload message.

(** Line 122; a value that is no [str] stays as it is and fails where
    line 139 iterates it. *)
Definition normalize_rcpttos (v : ToValue) : result (list string) :=
  match v with
  | ToStr s => OK [s]
  | ToAbsent => Raise (TypeError "'NoneType' object is not iterable")
  | ToHeader _ => Raise (TypeError "'Header' object is not iterable")
  end.

(** Lines 139-140. *)
Definition is_known_recipient (rcpttos : list string) : bool :=
  existsb (fun recipient =>
             existsb (fun address => String.eqb (lower recipient) (lower address))
                     (dict_keys EMAIL_ENDPOINTS))
          rcpttos.

(** Line 141. *)
Definition log_entry (mailfrom : option string) (rcpttos : list string)
           (decoded_subject content : string) : string :=
  "From: " ++ format_opt mailfrom ++ ", To: " ++ join ", " rcpttos
  ++ ", Subject: " ++ decoded_subject
  ++ ", Size: " ++ str_of_nat (String.length content) ++ " bytes".

(** The request a forward of [recipient] sends to [endpoint]. *)
Definition webhook_request (endpoint recipient decoded_subject content : string)
  : Request :=
  {| url := endpoint;
     json := [("from", recipient); ("subject", decoded_subject);
              ("content", content)] |}.

(** The awaited [requests.post]: the call is recorded, then it returns
    the status code or raises. *)
Definition post_call (req : Request) : Task nat :=
  fun w =>
    let w' := {| known_log := known_log w; unknown_log := unknown_log w;
                 http_calls := http_calls w ++ [req] |} in
    match requests_post (length (http_calls w)) req with
    | Response status_code => (OK status_code, w')
    | PostRaises e => (Raise e, w')
    end.

(** [try: body except requests.RequestException as e: handler(str(e))] *)
Definition try_except_RequestException (body : Task unit)
           (handler : string -> Task unit) : Task unit :=
  fun w =>
    match body w with
    | (Raise (RequestException msg), w') => handler msg w'
    | r => r
    end.

(** Lines 151-166. *)
Definition forward_to_webhook (recipient decoded_subject content : string)
  : Task unit :=
  match EMAIL_ENDPOINTS !! lower recipient with
  | Some endpoint =>
      if truthy endpoint then
        try_except_RequestException
          (let* status_code :=
             post_call (webhook_request endpoint recipient decoded_subject content) in
           logger_known INFO
             ("Forwarded to " ++ endpoint ++ ": " ++ str_of_nat status_code))
          (fun e =>
             logger_known ERROR ("Error sending to " ++ endpoint ++ ": " ++ e))
      else ret tt
  | None => ret tt
  end.

(** Lines 121-137 and the first use of [rcpttos] on line 139: what can
    raise before anything is logged. *)
Definition decode_stage (message : Message)
  : result (string * string * list string) :=
  rbind (decode_subject message) (fun decoded_subject =>
  rbind (extract_content message) (fun content =>
  rbind (normalize_rcpttos (hdr_to (headers message))) (fun rcpttos =>
  OK (decoded_subject, content, rcpttos)))).

(** Lines 145-147: the forwarding loop of a known message. *)
Definition forward_matching (decoded_subject content : string)
           (rcpttos : list string) : Task unit :=
  for_each rcpttos (fun recipient =>
    if dict_contains EMAIL_ENDPOINTS (lower recipient) then
      forward_to_webhook recipient decoded_subject content
    else ret tt).

(** Lines 112-149. *)
Definition async_handle_message (message : Message) : Task unit :=
  let mailfrom := hdr_from (headers message) in
  if negb (py_in mailfrom ALLOWED_SENDERS) then
    logger_unknown INFO
      ("Rejected email from unauthorized sender: " ++ format_opt mailfrom)
  else
    let* decoded_subject := lift (decode_subject message) in
    let* content := lift (extract_content message) in
    let* rcpttos := lift (normalize_rcpttos (hdr_to (headers message))) in
    let entry := log_entry mailfrom rcpttos decoded_subject content in
    if is_known_recipient rcpttos then
      logger_known INFO entry;;
      forward_matching decoded_subject content rcpttos
    else logger_unknown INFO entry.

(** Lines 108-110: the task is created and left to the event loop,
    modelled as the list of tasks scheduled so far. *)
Definition handle_message (message : Message) (loop : list (Task unit))
  : list (Task unit) :=
  loop ++ [async_handle_message message].

End Pipeline.

(** ** Vocabulary of the statements *)

(** The world after one more line in a log file or one more POST. *)
Definition with_known (w : World) (entries : list (Level * string)) : World :=
  {| known_log := known_log w ++ entries; unknown_log := unknown_log w;
     http_calls := http_calls w |}.

Definition with_unknown (w : World) (entries : list (Level * string)) : World :=
  {| known_log := known_log w; unknown_log := unknown_log w ++ entries;
     http_calls := http_calls w |}.

Definition with_calls (w : World) (reqs : list Request) : World :=
  {| known_log := known_log w; unknown_log := unknown_log w;
     http_calls := http_calls w ++ reqs |}.

(** [needle in text] *)
Definition contains (text needle : string) : Prop :=
  exists before after, text = before ++ needle ++ after.

(** The world after a POST of [req] and its outcome line [entry]. *)
Definition after_forward (w : World) (req : Request) (entry : Level * string)
  : World :=
  {| known_log := known_log w ++ [entry]; unknown_log := unknown_log w;
     http_calls := http_calls w ++ [req] |}.

(** The servers raise nothing but transport errors. *)
Definition only_transport_errors (post : nat -> Request -> PostOutcome) : Prop :=
  forall n req e, post n req = PostRaises e -> is_RequestException e = true.

(** The requests the forwarding loop sends for [rcpttos], in order: one
    for each recipient whose lower-cased address is mapped to a non-empty
    URL. *)
Definition forward_requests (d : gmap string string) (s c : string)
           (rcpttos : list string) : list Request :=
  flat_map (fun recipient =>
              match d !! lower recipient with
              | Some endpoint =>
                  if truthy endpoint
                  then [webhook_request endpoint recipient s c]
                  else []
              | None => []
              end) rcpttos.

(** ** Start-up: the configuration file (lines 86-102) *)

(** The JSON object of a file in the documented format: each of the two
    keys is missing or has its documented type, an object of strings and
    an array of strings.  The endpoints are the items of the parsed
    dict, in its order. *)
Record ConfigObject : Type := {
  cfg_email_endpoints : option (list (string * string));
  cfg_allowed_senders : option (list string)
}.

(** What [open(config_file)] followed by [json.load(f)] gives. *)
Inductive FileState : Type :=
| FileNotFound                     (* open raises FileNotFoundError *)
| LoadRaises (e : exn)             (* open or json.load raises another error *)
| LoadsObject (config : ConfigObject).

(** The two module globals after start-up. *)
Record Globals : Type := {
  g_EMAIL_ENDPOINTS : gmap string string;
  g_ALLOWED_SENDERS : list string
}.

(** Line 87: [os.environ.get('EMAIL_CONFIG_FILE', 'email_config.json')] *)
Definition config_file (environ : gmap string string) : string :=
  default "email_config.json" (environ !! "EMAIL_CONFIG_FILE").

(** Lines 95 and 98: the lines printed for a mapping and for a sender. *)
Definition endpoint_line (item : string * string) : string :=
  "  " ++ item.1 ++ " -> " ++ item.2.

Definition sender_line (sender : string) : string := "  " ++ sender.

(** Lines 88-102: the globals, or the error that ends the start-up, and
    the lines printed. *)
Definition load_config (environ : gmap string string)
           (open_json : string -> FileState)
  : result Globals * list string :=
  let path := config_file environ in
  match open_json path with
  | LoadsObject config =>
      let endpoints := default [] (cfg_email_endpoints config) in
      let senders := default [] (cfg_allowed_senders config) in
      (OK {| g_EMAIL_ENDPOINTS := list_to_map endpoints;
             g_ALLOWED_SENDERS := senders |},
       ("Loaded email configurations:" :: map endpoint_line endpoints
          ++ "Allowed senders:" :: map sender_line senders)%list)
  | FileNotFound =>
      (OK {| g_EMAIL_ENDPOINTS := ∅; g_ALLOWED_SENDERS := [] |},
       ["Configuration file " ++ path ++ " not found."])
  | LoadRaises e => (Raise e, [])
  end.

(** ** A concrete environment for the examples

    The codecs on the inputs the examples use, the encoded word that
    [local_test.py] sends, and servers that answer or refuse. *)
Module Sample.

Definition all_ascii (b : list byte) : bool :=
  forallb (fun x => (Byte.to_nat x <? 128)%nat) b.

(** [bytes.decode] where the examples need it: 'utf-8' on ASCII input and
    on the lone byte 0xFF, which starts no UTF-8 sequence; 'latin-1',
    where every byte is the code point of its number; 'unknown-8bit',
    which names no codec.  Anything else is marked as outside the
    examples. *)
Definition codec_decode (encoding : string) (b : list byte) : result string :=
  if String.eqb encoding "utf-8" then
    if all_ascii b then OK (string_of_list_byte b)
    else
      match b with
      | [xff] =>
          Raise (UnicodeDecodeError
                   ("'utf-8' codec can't decode byte 0xff in position 0: "
                    ++ "invalid start byte"))
      | _ => Raise (OtherError "NotModelled" "input outside the examples")
      end
  else if String.eqb encoding "latin-1" || String.eqb encoding "iso-8859-1" then
    OK (string_of_list_byte b)
  else if String.eqb encoding "unknown-8bit" then
    Raise (LookupError "unknown encoding: unknown-8bit")
  else Raise (OtherError "NotModelled" "codec outside the examples").

(** The subject [local_test.py] sends: [Header('Test Email thing', 'utf-8')]. *)
Definition test_subject : string := "=?utf-8?q?Test_Email_thing?=".

Definition decode_words (header : string)
  : result (list (list byte * option string)) :=
  if String.eqb header test_subject then
    OK [(list_byte_of_string "Test Email thing", Some "utf-8")]
  else Raise (OtherError "NotModelled" "header outside the examples").

(** Every server answers 200. *)
Definition post_200 (n : nat) (req : Request) : PostOutcome := Response 200.

(** Every connection is refused. *)
Definition post_refused (n : nat) (req : Request) : PostOutcome :=
  PostRaises (RequestException "connection refused").

(** The configuration of the module docstring, with the sender of
    [local_test.py] allowed. *)
Definition endpoints : gmap string string :=
  {[ "known@example.com" := "https://example.com/webhook" ]}.

Definition allowed : list string :=
  ["sender@example.com"; "another-sender@example.com"].

Definition text_headers (from : option string) (to : ToValue)
           (subject : option string) : Headers :=
  {| hdr_from := from; hdr_to := to; hdr_subject := HeaderStr <$> subject;
     hdr_content_type := "text/plain"; hdr_charset := Some "utf-8" |}.

(** The message [local_test.py] sends. *)
Definition test_message : Message :=
  Single (text_headers (Some "sender@example.com") (ToStr "known@example.com")
                       (Some test_subject))
         (list_byte_of_string "This is the body of the test email.").

(** The same, from a sender outside the allow-list. *)
Definition evil_message : Message :=
  Single (text_headers (Some "evil@x.com") (ToStr "known@example.com")
                       (Some test_subject))
         (list_byte_of_string "hello").

(** The same, with the allowed address in another letter case. *)
Definition shouting_message : Message :=
  Single (text_headers (Some "Sender@Example.com") (ToStr "known@example.com")
                       (Some test_subject))
         (list_byte_of_string "hello").

(** A body that is not UTF-8 text: the single byte 0xFF. *)
Definition undecodable_message : Message :=
  Single (text_headers (Some "sender@example.com") (ToStr "known@example.com")
                       (Some test_subject))
         [xff].

(** A To header that lists two addresses, the first one mapped: on the
    wire [To: known@example.com, other@example.com]. *)
Definition two_address_message : Message :=
  Single (text_headers (Some "sender@example.com")
                       (ToStr "known@example.com, other@example.com")
                       (Some test_subject))
         (list_byte_of_string "hello").

(** Raw 8-bit bytes in the To and Subject headers: on the wire
    [To: caf\xe9@example.com] and [Subject: Caf\xe9]. *)
Definition raw_to_message : Message :=
  Single (text_headers (Some "sender@example.com")
            (ToHeader [(list_byte_of_string "caf" ++ [xe9]
                          ++ list_byte_of_string "@example.com",
                        "unknown-8bit")]%list)
            (Some test_subject))
         (list_byte_of_string "hello").

Definition raw_subject_message : Message :=
  Single {| hdr_from := Some "sender@example.com";
            hdr_to := ToStr "known@example.com";
            hdr_subject :=
              Some (HeaderObj [(list_byte_of_string "Caf" ++ [xe9],
                                "unknown-8bit")]%list);
            hdr_content_type := "text/plain";
            hdr_charset := Some "utf-8" |}
         (list_byte_of_string "hello").

(** The mapping keyed with capitals. *)
Definition mixed_case_endpoints : gmap string string :=
  {[ "Known@Example.com" := "https://example.com/webhook" ]}.

(** The mapping with an empty URL. *)
Definition empty_url_endpoints : gmap string string :=
  {[ "known@example.com" := "" ]}.

(** multipart/alternative with the HTML part first. *)
Definition html_part : Message :=
  Single {| hdr_from := None; hdr_to := ToAbsent; hdr_subject := None;
            hdr_content_type := "text/html"; hdr_charset := Some "utf-8" |}
         (list_byte_of_string "<b>hi</b>").

Definition plain_part : Message :=
  Single {| hdr_from := None; hdr_to := ToAbsent; hdr_subject := None;
            hdr_content_type := "text/plain"; hdr_charset := None |}
         (list_byte_of_string "hi").

Definition alternative_message : Message :=
  Multipart {| hdr_from := Some "sender@example.com";
               hdr_to := ToStr "known@example.com";
               hdr_subject := Some (HeaderStr test_subject);
               hdr_content_type := "multipart/alternative";
               hdr_charset := None |}
            [html_part; plain_part].

(** A server that answers 500. *)
Definition post_500 (n : nat) (req : Request) : PostOutcome := Response 500.

(** A server whose reply makes [requests.post] raise an error that is no
    [RequestException]. *)
Definition post_broken (n : nat) (req : Request) : PostOutcome :=
  PostRaises (OtherError "ValueError" "broken").

(** The message of [local_test.py] without its To header. *)
Definition no_to_message : Message :=
  Single (text_headers (Some "sender@example.com") ToAbsent (Some test_subject))
         (list_byte_of_string "hello").

(** The same message with the subject sent as plain text. *)
Definition plain_subject_message : Message :=
  Single (text_headers (Some "sender@example.com") (ToStr "known@example.com")
                       (Some "Test Email thing"))
         (list_byte_of_string "hello").

(** A recipient that no key matches. *)
Definition stranger_message : Message :=
  Single (text_headers (Some "sender@example.com") (ToStr "nobody@example.com")
                       (Some test_subject))
         (list_byte_of_string "hello").

(** A container that declares no type of its own: [get_content_type()]
    answers text/plain. *)
Definition untyped_container : Message :=
  Multipart (text_headers (Some "sender@example.com") (ToStr "known@example.com")
                          (Some test_subject))
            [plain_part].

(** The file of the module docstring, and a directory that holds it. *)
Definition docstring_config : ConfigObject :=
  {| cfg_email_endpoints :=
       Some [("known@example.com", "https://example.com/webhook")];
     cfg_allowed_senders :=
       Some ["allowed-sender@example.com"; "another-sender@example.com"] |}.

Definition directory (path : string) : FileState :=
  if String.eqb path "email_config.json" then LoadsObject docstring_config
  else FileNotFound.

Definition empty_directory (path : string) : FileState := FileNotFound.

Definition run (eps : gmap string string) (post : nat -> Request -> PostOutcome)
           (message : Message) : result unit * World :=
  async_handle_message eps allowed codec_decode decode_words post message
                       empty_world.

End Sample.

(** ** Properties of the pipeline *)

(** *** Facts about the [str] and dict helpers *)

Lemma lower_char_idem (c : ascii) : lower_char (lower_char c) = lower_char c.
Proof. destruct c as [[] [] [] [] [] [] [] []]; reflexivity. Qed.

Lemma lower_idem (s : string) : lower (lower s) = lower s.
Proof.
  induction s as [|c s IH]; simpl; [reflexivity|].
  rewrite lower_char_idem, IH. reflexivity.
Qed.

Lemma py_in_true (f : string) (l : list string) :
  py_in (Some f) l = true <-> In f l.
Proof.
  simpl. rewrite existsb_exists. split.
  - intros (a & Ha & Heq). apply String.eqb_eq in Heq. subst a. exact Ha.
  - intros Hin. exists f. split; [exact Hin|]. apply String.eqb_refl.
Qed.

Lemma py_in_false (x : option string) (l : list string) :
  (forall a, In a l -> x <> Some a) -> py_in x l = false.
Proof.
  intros Hne. destruct x as [f|]; [|reflexivity].
  destruct (py_in (Some f) l) eqn:E; [|reflexivity].
  apply py_in_true in E. exfalso. apply (Hne f E). reflexivity.
Qed.

Lemma dict_contains_true (d : gmap string string) (k : string) :
  dict_contains d k = true <-> is_Some (d !! k).
Proof.
  unfold dict_contains. destruct (d !! k) as [v|].
  - split; [eauto | reflexivity].
  - split; [discriminate | intros [v Hv]; discriminate].
Qed.

Lemma lookup_dict_keys (d : gmap string string) (k v : string) :
  d !! k = Some v -> In k (dict_keys d).
Proof.
  intros Hk. unfold dict_keys. apply list_elem_of_In.
  apply list_elem_of_fmap. exists (k, v). split; [reflexivity|].
  apply elem_of_map_to_list. exact Hk.
Qed.

(** A recipient the forwarding loop selects makes the message known. *)
Lemma selected_is_known (d : gmap string string) (rcpttos : list string)
      (recipient : string) :
  In recipient rcpttos ->
  is_Some (d !! lower recipient) ->
  is_known_recipient d rcpttos = true.
Proof.
  intros Hin [v Hv]. unfold is_known_recipient.
  apply existsb_exists. exists recipient. split; [exact Hin|].
  apply existsb_exists. exists (lower recipient). split.
  - eapply lookup_dict_keys. exact Hv.
  - rewrite lower_idem. apply String.eqb_refl.
Qed.

Section Properties.

Variable EMAIL_ENDPOINTS : gmap string string.
Variable ALLOWED_SENDERS : list string.
Variable codec_decode : string -> list byte -> result string.
Variable decode_words : string -> result (list (list byte * option string)).
Variable requests_post : nat -> Request -> PostOutcome.

Local Abbreviation handle :=
  (async_handle_message EMAIL_ENDPOINTS ALLOWED_SENDERS codec_decode
                        decode_words requests_post).
Local Abbreviation forward := (forward_to_webhook EMAIL_ENDPOINTS requests_post).

Local Abbreviation forward_all :=
  (forward_matching EMAIL_ENDPOINTS requests_post).
Local Abbreviation subject_of := (decode_subject codec_decode decode_words).
Local Abbreviation content_of := (extract_content codec_decode).

(** The handler on a sender that the allow-list test refuses. *)
Lemma handle_unauthorized (message : Message) (w : World) :
  py_in (hdr_from (headers message)) ALLOWED_SENDERS = false ->
  handle message w =
  (OK tt, with_unknown w
     [(INFO, "Rejected email from unauthorized sender: "
             ++ format_opt (hdr_from (headers message)))]).
Proof.
  intros Hin. unfold async_handle_message. rewrite Hin. reflexivity.
Qed.

(** C5: a message whose sender is not in the allow-list stops at the
    authorization filter: the task returns, no HTTP call is issued,
    the unknown sink gets exactly one entry, which carries the
    "unauthorized sender" reason, and the known sink gets none. *)
Theorem unauthorized_sender_dropped (message : Message) (w : World) :
  (forall a, In a ALLOWED_SENDERS -> hdr_from (headers message) <> Some a) ->
  exists entry,
    handle message w = (OK tt, with_unknown w [(INFO, entry)])
    /\ contains entry "unauthorized sender"
    /\ http_calls (handle message w).2 = http_calls w
    /\ known_log (handle message w).2 = known_log w
    /\ length (unknown_log (handle message w).2) = S (length (unknown_log w)).
Proof.
  intros Hne. apply py_in_false in Hne.
  rewrite (handle_unauthorized message w Hne).
  eexists. split; [reflexivity|]. split.
  - exists "Rejected email from ", (": " ++ format_opt (hdr_from (headers message))).
    reflexivity.
  - simpl. rewrite length_app. simpl. repeat split; lia.
Qed.

(** C9: the authorization test is string identity with an allow-list
    entry: a From value that is not literally one of the entries, be
    the difference only letter case or a display name around the
    address, is rejected as an unauthorized sender; and the test
    accepts a value exactly when it is one of the entries. *)
Theorem sender_match_is_exact (message : Message) (w : World) (f : string) :
  hdr_from (headers message) = Some f ->
  (forall a, In a ALLOWED_SENDERS -> a <> f) ->
  handle message w =
  (OK tt, with_unknown w
     [(INFO, "Rejected email from unauthorized sender: " ++ f)])
  /\ (forall g, py_in (Some g) ALLOWED_SENDERS = true <-> In g ALLOWED_SENDERS).
Proof.
  intros Hf Hne. split; [|intros g; apply py_in_true].
  rewrite handle_unauthorized; rewrite Hf.
  - reflexivity.
  - apply py_in_false. intros a Ha Heq. apply (Hne a Ha). congruence.
Qed.

(** *** One forward attempt *)

Lemma forward_unmapped (recipient s c : string) (w : World) :
  EMAIL_ENDPOINTS !! lower recipient = None ->
  forward recipient s c w = (OK tt, w).
Proof. intros H. unfold forward_to_webhook. rewrite H. reflexivity. Qed.

Lemma forward_empty_endpoint (recipient s c : string) (w : World) :
  EMAIL_ENDPOINTS !! lower recipient = Some "" ->
  forward recipient s c w = (OK tt, w).
Proof. intros H. unfold forward_to_webhook. rewrite H. reflexivity. Qed.

Lemma forward_outcome (recipient endpoint s c : string) (w : World) :
  EMAIL_ENDPOINTS !! lower recipient = Some endpoint ->
  truthy endpoint = true ->
  forward recipient s c w =
  let req := webhook_request endpoint recipient s c in
  match requests_post (length (http_calls w)) req with
  | Response status_code =>
      (OK tt, after_forward w req
                (INFO, "Forwarded to " ++ endpoint ++ ": "
                       ++ str_of_nat status_code))
  | PostRaises (RequestException msg) =>
      (OK tt, after_forward w req
                (ERROR, "Error sending to " ++ endpoint ++ ": " ++ msg))
  | PostRaises e => (Raise e, with_calls w [req])
  end.
Proof.
  intros Hep Htr. unfold forward_to_webhook. rewrite Hep, Htr.
  unfold try_except_RequestException, bind, post_call. simpl.
  destruct (requests_post _ _) as [status_code|e]; [reflexivity|].
  destruct e; reflexivity.
Qed.

(** The requests one attempt adds: the one to the mapped, non-empty URL. *)
Lemma forward_calls (recipient s c : string) (w : World) :
  http_calls (forward recipient s c w).2 =
  (http_calls w ++
    match EMAIL_ENDPOINTS !! lower recipient with
    | Some endpoint =>
        if truthy endpoint then
          [{| url := endpoint;
              json := [("from", recipient); ("subject", s); ("content", c)] |}]
        else []
    | None => []
    end)%list.
Proof.
  destruct (EMAIL_ENDPOINTS !! lower recipient) as [endpoint|] eqn:Hep.
  - destruct (truthy endpoint) eqn:Htr.
    + rewrite (forward_outcome _ _ _ _ _ Hep Htr). simpl.
      destruct (requests_post _ _) as [status_code|e]; [reflexivity|].
      destruct e; reflexivity.
    + unfold forward_to_webhook. rewrite Hep, Htr. simpl.
      symmetry. apply app_nil_r.
  - rewrite (forward_unmapped _ _ _ _ Hep). simpl. symmetry. apply app_nil_r.
Qed.

(** The loop, one recipient at a time. *)
Lemma forward_all_cons (s c recipient : string) (rest : list string)
      (w : World) :
  forward_all s c (recipient :: rest) w =
  match (if dict_contains EMAIL_ENDPOINTS (lower recipient)
         then forward recipient s c else ret tt) w with
  | (OK _, w') => forward_all s c rest w'
  | (Raise e, w') => (Raise e, w')
  end.
Proof. reflexivity. Qed.

Lemma forward_all_skip (s c recipient : string) (rest : list string)
      (w : World) :
  forward recipient s c w = (OK tt, w) ->
  forward_all s c (recipient :: rest) w = forward_all s c rest w.
Proof.
  intros Hfw. rewrite forward_all_cons.
  destruct (dict_contains _ _); [rewrite Hfw|]; reflexivity.
Qed.

(** C7: when the POST of a forward attempt fails with a transport error
    ([requests.RequestException]), the attempt records that one call,
    appends exactly one ERROR entry to the known sink and returns
    normally; the forwarding loop then goes on with the remaining
    recipients from that world. *)
Theorem transport_failure_contained (recipient endpoint s c msg : string)
        (rest : list string) (w : World) :
  EMAIL_ENDPOINTS !! lower recipient = Some endpoint ->
  truthy endpoint = true ->
  requests_post (length (http_calls w))
                (webhook_request endpoint recipient s c)
  = PostRaises (RequestException msg) ->
  let w' := {| known_log := known_log w
                 ++ [(ERROR, "Error sending to " ++ endpoint ++ ": " ++ msg)];
               unknown_log := unknown_log w;
               http_calls := http_calls w
                 ++ [webhook_request endpoint recipient s c] |} in
  forward recipient s c w = (OK tt, w')
  /\ forward_all s c (recipient :: rest) w = forward_all s c rest w'.
Proof.
  intros Hep Htr Hpost w'.
  assert (Hfw : forward recipient s c w = (OK tt, w')).
  { rewrite (forward_outcome _ _ _ _ _ Hep Htr). simpl. rewrite Hpost.
    reflexivity. }
  split; [exact Hfw|].
  rewrite forward_all_cons.
  assert (Hc : dict_contains EMAIL_ENDPOINTS (lower recipient) = true).
  { apply dict_contains_true. eauto. }
  rewrite Hc, Hfw. reflexivity.
Qed.

(** *** The task of an authorized sender *)

Lemma handle_authorized (message : Message) (w : World)
      (s c : string) (rcpttos : list string) :
  py_in (hdr_from (headers message)) ALLOWED_SENDERS = true ->
  decode_stage codec_decode decode_words message = OK (s, c, rcpttos) ->
  handle message w =
  let entry := (INFO, log_entry (hdr_from (headers message)) rcpttos s c) in
  if is_known_recipient EMAIL_ENDPOINTS rcpttos
  then forward_all s c rcpttos (with_known w [entry])
  else (OK tt, with_unknown w [entry]).
Proof.
  intros Hin Hdec. unfold async_handle_message, decode_stage in *.
  rewrite Hin. simpl. unfold bind, lift.
  destruct (subject_of message) as [s'|e]; [|discriminate]. simpl in Hdec.
  destruct (content_of message) as [c'|e]; [|discriminate]. simpl in Hdec.
  destruct (normalize_rcpttos _) as [rs|e]; [|discriminate]. simpl in Hdec.
  injection Hdec as -> -> ->.
  destruct (is_known_recipient _ _); reflexivity.
Qed.

Lemma handle_decode_failure (message : Message) (w : World) (e : exn) :
  py_in (hdr_from (headers message)) ALLOWED_SENDERS = true ->
  decode_stage codec_decode decode_words message = Raise e ->
  handle message w = (Raise e, w).
Proof.
  intros Hin Hdec. unfold async_handle_message, decode_stage in *.
  rewrite Hin. simpl. unfold bind, lift.
  destruct (subject_of message) as [s'|e1]; simpl in Hdec;
    [|injection Hdec as ->; reflexivity].
  destruct (content_of message) as [c'|e2]; simpl in Hdec;
    [|injection Hdec as ->; reflexivity].
  destruct (normalize_rcpttos _) as [rs|e3]; simpl in Hdec;
    [discriminate | injection Hdec as ->; reflexivity].
Qed.

Lemma forward_returns (recipient s c : string) (w : World) :
  only_transport_errors requests_post ->
  (forward recipient s c w).1 = OK tt.
Proof.
  intros Honly.
  destruct (EMAIL_ENDPOINTS !! lower recipient) as [endpoint|] eqn:Hep;
    [|rewrite (forward_unmapped _ _ _ _ Hep); reflexivity].
  destruct (truthy endpoint) eqn:Htr.
  - rewrite (forward_outcome _ _ _ _ _ Hep Htr). simpl.
    destruct (requests_post _ _) as [status_code|e] eqn:Hpost; [reflexivity|].
    apply Honly in Hpost. destruct e; try discriminate Hpost. reflexivity.
  - unfold forward_to_webhook. rewrite Hep, Htr. reflexivity.
Qed.

Lemma forward_all_returns (s c : string) (rcpttos : list string) :
  only_transport_errors requests_post ->
  forall w, (forward_all s c rcpttos w).1 = OK tt.
Proof.
  intros Honly. induction rcpttos as [|recipient rest IH]; intros w.
  - reflexivity.
  - rewrite forward_all_cons.
    destruct (dict_contains _ _).
    + pose proof (forward_returns recipient s c w Honly) as Hr.
      destruct (forward recipient s c w) as [[[]|e] w']; simpl in Hr;
        [apply IH | discriminate].
    + apply IH.
Qed.

(** The requests the loop adds are forwards of its recipients. *)
Lemma forward_all_calls (s c : string) (rcpttos : list string) :
  forall w, exists new,
    http_calls (forward_all s c rcpttos w).2 = (http_calls w ++ new)%list
    /\ Forall (fun q => exists recipient endpoint,
                 In recipient rcpttos
                 /\ EMAIL_ENDPOINTS !! lower recipient = Some endpoint
                 /\ q = {| url := endpoint;
                           json := [("from", recipient); ("subject", s);
                                    ("content", c)] |}) new.
Proof.
  induction rcpttos as [|recipient rest IH]; intros w.
  - exists []. simpl. split; [symmetry; apply app_nil_r | constructor].
  - assert (Hweak : forall new,
      Forall (fun q => exists recipient0 endpoint,
                In recipient0 rest
                /\ EMAIL_ENDPOINTS !! lower recipient0 = Some endpoint
                /\ q = {| url := endpoint;
                          json := [("from", recipient0); ("subject", s);
                                   ("content", c)] |}) new ->
      Forall (fun q => exists recipient0 endpoint,
                In recipient0 (recipient :: rest)
                /\ EMAIL_ENDPOINTS !! lower recipient0 = Some endpoint
                /\ q = {| url := endpoint;
                          json := [("from", recipient0); ("subject", s);
                                   ("content", c)] |}) new).
    { intros new Hall. eapply Forall_impl; [exact Hall|].
      intros q (r & ep & Hin & Hep & Hq).
      exists r, ep. split; [right; exact Hin | split; assumption]. }
    rewrite forward_all_cons.
    destruct (dict_contains _ _).
    + pose proof (forward_calls recipient s c w) as Hc.
      destruct (forward recipient s c w) as [[[]|e] w1]; simpl in Hc.
      * destruct (IH w1) as (new & Hnew & Hall).
        rewrite Hnew, Hc, <- app_assoc. eexists. split; [reflexivity|].
        apply Forall_app. split; [|apply Hweak; exact Hall].
        destruct (EMAIL_ENDPOINTS !! lower recipient) as [endpoint|] eqn:Hep;
          [|constructor].
        destruct (truthy endpoint); constructor; [|constructor].
        exists recipient, endpoint. split; [left; reflexivity | split; [exact Hep | reflexivity]].
      * simpl. rewrite Hc. eexists. split; [reflexivity|].
        destruct (EMAIL_ENDPOINTS !! lower recipient) as [endpoint|] eqn:Hep;
          [|constructor].
        destruct (truthy endpoint); constructor; [|constructor].
        exists recipient, endpoint. split; [left; reflexivity | split; [exact Hep | reflexivity]].
    + destruct (IH w) as (new & Hnew & Hall).
      exists new. split; [exact Hnew | apply Hweak; exact Hall].
Qed.

(** C8: a forward attempt for a recipient mapped to a non-empty URL issues
    exactly one request, to that URL, whose JSON body is the three fields
    [from], [subject], [content], with [from] the recipient as it appears
    in the message; and every request the task of a message issues is such
    a request for one of its recipients, carrying the decoded subject and
    the extracted content of that message. *)
Theorem outbound_request_shape (message : Message) (w : World) :
  (forall recipient s c w1,
      http_calls (forward recipient s c w1).2 =
      (http_calls w1 ++
         match EMAIL_ENDPOINTS !! lower recipient with
         | Some endpoint =>
             if truthy endpoint then
               [{| url := endpoint;
                   json := [("from", recipient); ("subject", s);
                            ("content", c)] |}]
             else []
         | None => []
         end)%list)
  /\ exists new,
      http_calls (handle message w).2 = (http_calls w ++ new)%list
      /\ Forall (fun q => exists recipient endpoint s c rcpttos,
                   subject_of message = OK s
                   /\ content_of message = OK c
                   /\ normalize_rcpttos (hdr_to (headers message)) = OK rcpttos
                   /\ In recipient rcpttos
                   /\ EMAIL_ENDPOINTS !! lower recipient = Some endpoint
                   /\ q = {| url := endpoint;
                             json := [("from", recipient); ("subject", s);
                                      ("content", c)] |}) new.
Proof.
  split; [intros; apply forward_calls|].
  destruct (py_in (hdr_from (headers message)) ALLOWED_SENDERS) eqn:Hin.
  - destruct (decode_stage codec_decode decode_words message)
      as [[[s c] rcpttos]|e] eqn:Hdec.
    + rewrite (handle_authorized _ w _ _ _ Hin Hdec). simpl.
      assert (Hparts : subject_of message = OK s /\ content_of message = OK c
                       /\ normalize_rcpttos (hdr_to (headers message)) = OK rcpttos).
      { unfold decode_stage in Hdec.
        destruct (subject_of message) as [s'|]; [|discriminate]. simpl in Hdec.
        destruct (content_of message) as [c'|]; [|discriminate]. simpl in Hdec.
        destruct (normalize_rcpttos _) as [rs|]; [|discriminate]. simpl in Hdec.
        injection Hdec as -> -> ->. repeat split. }
      destruct Hparts as (Hs & Hc & Hr).
      destruct (is_known_recipient _ _).
      * destruct (forward_all_calls s c rcpttos
                    (with_known w [(INFO, log_entry (hdr_from (headers message))
                                                    rcpttos s c)]))
          as (new & Hnew & Hall).
        exists new. split; [exact Hnew|].
        eapply Forall_impl; [exact Hall|].
        intros q (r & ep & Hri & Hep & Hq).
        exists r, ep, s, c, rcpttos. repeat split; assumption.
      * exists []. split; [simpl; symmetry; apply app_nil_r | constructor].
    + rewrite (handle_decode_failure _ w _ Hin Hdec).
      exists []. split; [simpl; symmetry; apply app_nil_r | constructor].
  - rewrite (handle_unauthorized _ w Hin).
    exists []. split; [simpl; symmetry; apply app_nil_r | constructor].
Qed.

Lemma decode_stage_ok (message : Message) (s c : string)
      (rcpttos : list string) :
  subject_of message = OK s ->
  content_of message = OK c ->
  normalize_rcpttos (hdr_to (headers message)) = OK rcpttos ->
  decode_stage codec_decode decode_words message = OK (s, c, rcpttos).
Proof.
  intros Hs Hc Hr. unfold decode_stage. rewrite Hs, Hc, Hr. reflexivity.
Qed.

(** C2 (as the code has it): the task body has no failure boundary of
    its own; only a transport error of the POST is caught, inside
    [forward_to_webhook].  For a message of an authorized sender, when
    the servers raise nothing but transport errors, the task body
    returns normally exactly when the subject decodes, the body decodes
    and the To value is a [str].  Otherwise it returns, having written
    no log entry, the first of these errors: the error of the subject
    decoder, the error of the content extractor, or the TypeError of
    line 139 on a To value that is [None] (header absent) or a [Header]
    object (header with a raw 8-bit byte). *)
Theorem task_fails_exactly_on_decode_stage (message : Message) (w : World) :
  py_in (hdr_from (headers message)) ALLOWED_SENDERS = true ->
  only_transport_errors requests_post ->
  match subject_of message with
  | Raise e => handle message w = (Raise e, w)
  | OK _ =>
      match content_of message with
      | Raise e => handle message w = (Raise e, w)
      | OK _ =>
          match hdr_to (headers message) with
          | ToStr _ => (handle message w).1 = OK tt
          | ToAbsent =>
              handle message w
              = (Raise (TypeError "'NoneType' object is not iterable"), w)
          | ToHeader _ =>
              handle message w
              = (Raise (TypeError "'Header' object is not iterable"), w)
          end
      end
  end.
Proof.
  intros Hin Honly.
  destruct (subject_of message) as [s|e] eqn:Hs.
  - destruct (content_of message) as [c|e] eqn:Hc.
    + destruct (hdr_to (headers message)) as [|recipient|h] eqn:Hto.
      * apply handle_decode_failure; [exact Hin|].
        unfold decode_stage. rewrite Hs, Hc, Hto. reflexivity.
      * assert (Hdec : decode_stage codec_decode decode_words message
                       = OK (s, c, [recipient])).
        { apply decode_stage_ok; [assumption..|]. rewrite Hto. reflexivity. }
        rewrite (handle_authorized _ w _ _ _ Hin Hdec). cbv zeta.
        destruct (is_known_recipient EMAIL_ENDPOINTS [recipient]);
          [|reflexivity].
        apply forward_all_returns. exact Honly.
      * apply handle_decode_failure; [exact Hin|].
        unfold decode_stage. rewrite Hs, Hc, Hto. reflexivity.
    + apply handle_decode_failure; [exact Hin|].
      unfold decode_stage. rewrite Hs, Hc. reflexivity.
  - apply handle_decode_failure; [exact Hin|].
    unfold decode_stage. rewrite Hs. reflexivity.
Qed.

(** C10: for a recipient whose lower-cased address is mapped to the empty
    string, in a message of an authorized sender that decodes: the
    message is classified known and its entry is written once to the
    known sink before the forwarding loop runs; the forward attempt for
    that recipient returns with the world as it found it (no request, no
    entry in either sink), and the loop goes on as if the recipient were
    not there. *)
Theorem empty_endpoint_forward_is_noop (message : Message) (w : World)
        (recipient s c : string) (rcpttos : list string) :
  py_in (hdr_from (headers message)) ALLOWED_SENDERS = true ->
  subject_of message = OK s ->
  content_of message = OK c ->
  normalize_rcpttos (hdr_to (headers message)) = OK rcpttos ->
  In recipient rcpttos ->
  EMAIL_ENDPOINTS !! lower recipient = Some "" ->
  is_known_recipient EMAIL_ENDPOINTS rcpttos = true
  /\ handle message w =
     forward_all s c rcpttos
       (with_known w [(INFO, log_entry (hdr_from (headers message)) rcpttos s c)])
  /\ (forall w1, forward recipient s c w1 = (OK tt, w1))
  /\ (forall rest w1,
        forward_all s c (recipient :: rest) w1 = forward_all s c rest w1).
Proof.
  intros Hin Hs Hc Hr Hmem Hep.
  assert (Hknown : is_known_recipient EMAIL_ENDPOINTS rcpttos = true).
  { apply (selected_is_known _ _ recipient); [exact Hmem | eauto]. }
  split; [exact Hknown|]. split.
  - rewrite (handle_authorized _ w _ _ _ Hin (decode_stage_ok _ _ _ _ Hs Hc Hr)).
    simpl. rewrite Hknown. reflexivity.
  - split.
    + intros w1. apply forward_empty_endpoint. exact Hep.
    + intros rest w1. apply forward_all_skip.
      apply forward_empty_endpoint. exact Hep.
Qed.

(** *** The content extractor *)

Lemma first_text_part_skip (pre rest : list Message) :
  Forall (fun q => is_text_type (get_content_type q) = false) pre ->
  first_text_part codec_decode (pre ++ rest)
  = first_text_part codec_decode rest.
Proof.
  induction 1 as [|q pre Hq _ IH]; simpl; [reflexivity|].
  rewrite Hq. exact IH.
Qed.

(** C6: for a multipart message, the extracted content is the decoded
    payload (declared charset, else UTF-8) of the first part, in the
    order of the walk, whose content type is text/plain or text/html,
    whatever parts follow it; with no such part it is the empty string. *)
Theorem multipart_first_text_part (message : Message) :
  is_multipart message = true ->
  (forall pre part post,
      walk message = (pre ++ part :: post)%list ->
      Forall (fun q => is_text_type (get_content_type q) = false) pre ->
      is_text_type (get_content_type part) = true ->
      content_of message = decode_payload codec_decode part
      /\ decode_payload codec_decode part =
         match get_payload_decode part with
         | Some b => codec_decode (default "utf-8" (hdr_charset (headers part))) b
         | None =>
             Raise (AttributeError "'NoneType' object has no attribute 'decode'")
         end)
  /\ (Forall (fun q => is_text_type (get_content_type q) = false) (walk message) ->
      content_of message = OK "").
Proof.
  intros Hmp. unfold extract_content. rewrite Hmp. split.
  - intros pre part post Hwalk Hpre Hpart. split; [|reflexivity].
    rewrite Hwalk, (first_text_part_skip pre _ Hpre). simpl.
    rewrite Hpart. reflexivity.
  - intros Hnone.
    rewrite <- (app_nil_r (walk message)).
    rewrite (first_text_part_skip _ [] Hnone). reflexivity.
Qed.

(** *** Classification and selection of recipients *)

Lemma dict_keys_spec (d : gmap string string) (k : string) :
  In k (dict_keys d) <-> is_Some (d !! k).
Proof.
  split.
  - unfold dict_keys. intros Hin. apply list_elem_of_In in Hin.
    apply list_elem_of_fmap in Hin as ([k' v] & -> & Hkv).
    apply elem_of_map_to_list in Hkv. eauto.
  - intros [v Hv]. eapply lookup_dict_keys. exact Hv.
Qed.

Lemma is_known_recipient_spec (d : gmap string string) (rcpttos : list string) :
  is_known_recipient d rcpttos = true <->
  exists recipient address,
    In recipient rcpttos /\ is_Some (d !! address)
    /\ lower recipient = lower address.
Proof.
  unfold is_known_recipient. rewrite existsb_exists. split.
  - intros (r & Hr & Hex). apply existsb_exists in Hex as (a & Ha & Heq).
    exists r, a. split; [exact Hr|]. split.
    + apply dict_keys_spec. exact Ha.
    + apply String.eqb_eq. exact Heq.
  - intros (r & a & Hr & Ha & Heq). exists r. split; [exact Hr|].
    apply existsb_exists. exists a. split.
    + apply dict_keys_spec. exact Ha.
    + apply String.eqb_eq. exact Heq.
Qed.



(** X3: when every key of the mapping is written in lower case, the
    classification test (line 140) and the selection test of the
    forwarding loop (line 146) agree: a message is known exactly when
    one of its recipients is selected. *)
Theorem lower_case_keys_make_tests_agree (rcpttos : list string) :
  (forall k, is_Some (EMAIL_ENDPOINTS !! k) -> lower k = k) ->
  is_known_recipient EMAIL_ENDPOINTS rcpttos
  = existsb (fun recipient => dict_contains EMAIL_ENDPOINTS (lower recipient))
            rcpttos.
Proof.
  intros Hlow. apply Bool.eq_true_iff_eq. rewrite is_known_recipient_spec.
  rewrite existsb_exists. split.
  - intros (r & a & Hr & Ha & Heq). exists r. split; [exact Hr|].
    apply dict_contains_true. rewrite Heq, (Hlow a Ha). exact Ha.
  - intros (r & Hr & Hsel). apply dict_contains_true in Hsel.
    exists r, (lower r). split; [exact Hr|]. split; [exact Hsel|].
    symmetry. apply lower_idem.
Qed.

(** X1: a message of an authorized sender that decodes and none of whose
    recipients equals a key of the mapping, letter case ignored, leaves
    exactly its entry in the unknown sink: nothing goes to the known
    sink and no request is issued. *)
Theorem unknown_message_logged_once (message : Message) (w : World)
        (s c : string) (rcpttos : list string) :
  py_in (hdr_from (headers message)) ALLOWED_SENDERS = true ->
  subject_of message = OK s ->
  content_of message = OK c ->
  normalize_rcpttos (hdr_to (headers message)) = OK rcpttos ->
  (forall recipient address,
      In recipient rcpttos -> is_Some (EMAIL_ENDPOINTS !! address) ->
      lower recipient <> lower address) ->
  handle message w =
  (OK tt,
   {| known_log := known_log w;
      unknown_log := unknown_log w
        ++ [(INFO, log_entry (hdr_from (headers message)) rcpttos s c)];
      http_calls := http_calls w |}).
Proof.
  intros Hin Hs Hc Hr Hnone.
  rewrite (handle_authorized _ w _ _ _ Hin (decode_stage_ok _ _ _ _ Hs Hc Hr)).
  simpl.
  destruct (is_known_recipient EMAIL_ENDPOINTS rcpttos) eqn:Hknown;
    [|reflexivity].
  apply is_known_recipient_spec in Hknown as (r & a & Hri & Ha & Heq).
  exfalso. exact (Hnone r a Hri Ha Heq).
Qed.

(** *** The forwarding loop as a whole *)

Lemma world_eta (w : World) :
  w = {| known_log := known_log w ++ []; unknown_log := unknown_log w;
         http_calls := http_calls w ++ [] |}.
Proof. destruct w; simpl. rewrite !app_nil_r. reflexivity. Qed.

Lemma forward_all_exact (s c : string) (rcpttos : list string) :
  only_transport_errors requests_post ->
  forall w, exists outcomes,
    forward_all s c rcpttos w =
    (OK tt,
     {| known_log := known_log w ++ outcomes;
        unknown_log := unknown_log w;
        http_calls := http_calls w
          ++ forward_requests EMAIL_ENDPOINTS s c rcpttos |})
    /\ length outcomes = length (forward_requests EMAIL_ENDPOINTS s c rcpttos).
Proof.
  intros Honly. induction rcpttos as [|r rest IH]; intros w.
  - exists []. split; [|reflexivity]. simpl. unfold ret. f_equal.
    apply world_eta.
  - rewrite forward_all_cons. unfold forward_requests. simpl.
    fold (forward_requests EMAIL_ENDPOINTS s c rest).
    unfold dict_contains.
    destruct (EMAIL_ENDPOINTS !! lower r) as [endpoint|] eqn:Hep.
    + destruct (truthy endpoint) eqn:Htr.
      * rewrite (forward_outcome _ _ _ _ _ Hep Htr). simpl.
        destruct (requests_post _ _) as [status_code|e] eqn:Hpost.
        -- destruct (IH (after_forward w (webhook_request endpoint r s c)
                     (INFO, "Forwarded to " ++ endpoint ++ ": "
                            ++ str_of_nat status_code)))
             as (outcomes & Hrun & Hlen).
           eexists (_ :: outcomes). rewrite Hrun. simpl.
           rewrite <- !app_assoc. simpl. split; [reflexivity|].
           rewrite Hlen. reflexivity.
        -- apply Honly in Hpost. destruct e; try discriminate Hpost.
           destruct (IH (after_forward w (webhook_request endpoint r s c)
                     (ERROR, "Error sending to " ++ endpoint ++ ": " ++ msg)))
             as (outcomes & Hrun & Hlen).
           eexists (_ :: outcomes). rewrite Hrun. simpl.
           rewrite <- !app_assoc. simpl. split; [reflexivity|].
           rewrite Hlen. reflexivity.
      * unfold forward_to_webhook. rewrite Hep, Htr. simpl. apply IH.
    + simpl. apply IH.
Qed.


(** X5: for a known message of an authorized sender that decodes, when
    the servers raise nothing but transport errors, the known sink gets
    the entry of the message first and then exactly one outcome line for
    each request issued; the unknown sink gets nothing. *)
Theorem known_log_has_one_line_per_post (message : Message) (w : World)
        (s c : string) (rcpttos : list string) :
  py_in (hdr_from (headers message)) ALLOWED_SENDERS = true ->
  decode_stage codec_decode decode_words message = OK (s, c, rcpttos) ->
  only_transport_errors requests_post ->
  is_known_recipient EMAIL_ENDPOINTS rcpttos = true ->
  exists outcomes,
    known_log (handle message w).2
    = (known_log w
         ++ (INFO, log_entry (hdr_from (headers message)) rcpttos s c)
            :: outcomes)%list
    /\ length outcomes
       = length (forward_requests EMAIL_ENDPOINTS s c rcpttos)
    /\ unknown_log (handle message w).2 = unknown_log w.
Proof.
  intros Hin Hdec Honly Hknown.
  rewrite (handle_authorized _ w _ _ _ Hin Hdec). simpl. rewrite Hknown.
  destruct (forward_all_exact s c rcpttos Honly
              (with_known w [(INFO, log_entry (hdr_from (headers message))
                                              rcpttos s c)]))
    as (outcomes & Hrun & Hlen).
  exists outcomes. rewrite Hrun. simpl. rewrite <- app_assoc.
  split; [reflexivity|]. split; [exact Hlen | reflexivity].
Qed.

(** One attempt adds nothing, or its request with its outcome line, or,
    when the POST raises another error, its request alone. *)
Lemma forward_grows (recipient s c : string) (w : World) :
  exists k q,
    (forward recipient s c w).2
    = {| known_log := known_log w ++ k; unknown_log := unknown_log w;
         http_calls := http_calls w ++ q |}
    /\ (length q <= length k
        \/ (is_OK (forward recipient s c w).1 = false
            /\ k = [] /\ length q = 1)).
Proof.
  destruct (EMAIL_ENDPOINTS !! lower recipient) as [endpoint|] eqn:Hep.
  - destruct (truthy endpoint) eqn:Htr.
    + rewrite (forward_outcome _ _ _ _ _ Hep Htr). simpl.
      destruct (requests_post _ _) as [status_code|e].
      * eexists [_], [_]. split; [reflexivity|]. left. reflexivity.
      * destruct e;
          try (exists [], [webhook_request endpoint recipient s c];
               split; [simpl; rewrite app_nil_r; reflexivity|];
               right; repeat split; reflexivity).
        eexists [_], [_]. split; [reflexivity|]. left. reflexivity.
    + unfold forward_to_webhook. rewrite Hep, Htr.
      exists [], []. split; [apply world_eta | left; reflexivity].
  - rewrite (forward_unmapped _ _ _ _ Hep).
    exists [], []. split; [apply world_eta | left; reflexivity].
Qed.

Lemma forward_all_grows (s c : string) (rcpttos : list string) :
  forall w, exists k q,
    (forward_all s c rcpttos w).2
    = {| known_log := known_log w ++ k; unknown_log := unknown_log w;
         http_calls := http_calls w ++ q |}
    /\ length q <= S (length k).
Proof.
  induction rcpttos as [|r rest IH]; intros w.
  - exists [], []. split; [apply world_eta | simpl; lia].
  - rewrite forward_all_cons. destruct (dict_contains _ _).
    + destruct (forward_grows r s c w) as (k1 & q1 & Hw1 & Hlen1).
      destruct (forward r s c w) as [[[]|e] w1]; simpl in Hw1, Hlen1.
      * destruct Hlen1 as [Hlen1 | (Hbad & _)]; [|discriminate Hbad].
        destruct (IH w1) as (k2 & q2 & Hw2 & Hlen2).
        exists (k1 ++ k2)%list, (q1 ++ q2)%list. split.
        -- simpl. rewrite Hw2, Hw1. simpl. rewrite !app_assoc. reflexivity.
        -- rewrite !length_app. lia.
      * exists k1, q1. split; [exact Hw1|].
        destruct Hlen1 as [Hlen1 | (_ & -> & Hq)]; simpl; lia.
    + apply IH.
Qed.

(** X6: whatever the message and the servers, a task only appends to the
    two sinks and to the requests issued.  It writes to the unknown sink
    at most once, and then writes nothing to the known sink and issues
    no request; and it never issues more requests than it writes lines
    to the known sink. *)
Theorem sinks_only_grow (message : Message) (w : World) :
  exists k u q,
    (handle message w).2
    = {| known_log := known_log w ++ k; unknown_log := unknown_log w ++ u;
         http_calls := http_calls w ++ q |}
    /\ length q <= length k
    /\ (u = [] \/ (length u = 1 /\ k = [] /\ q = [])).
Proof.
  assert (Heta : forall u,
    with_unknown w u
    = {| known_log := known_log w ++ []; unknown_log := unknown_log w ++ u;
         http_calls := http_calls w ++ [] |}).
  { intros u. unfold with_unknown. rewrite !app_nil_r. reflexivity. }
  destruct (py_in (hdr_from (headers message)) ALLOWED_SENDERS) eqn:Hin.
  - destruct (decode_stage codec_decode decode_words message)
      as [[[s c] rcpttos]|e] eqn:Hdec.
    + rewrite (handle_authorized _ w _ _ _ Hin Hdec). simpl.
      destruct (is_known_recipient _ _).
      * destruct (forward_all_grows s c rcpttos
                    (with_known w [(INFO, log_entry (hdr_from (headers message))
                                                    rcpttos s c)]))
          as (k & q & Hw & Hlen).
        exists ((INFO, log_entry (hdr_from (headers message)) rcpttos s c) :: k),
               [], q.
        rewrite Hw. simpl. rewrite <- app_assoc, app_nil_r.
        split; [reflexivity|]. split; [simpl; lia | left; reflexivity].
      * eexists [], [_], []. simpl. split; [apply Heta|].
        split; [reflexivity|]. right. repeat split; reflexivity.
    + rewrite (handle_decode_failure _ w _ Hin Hdec). simpl.
      exists [], [], []. split; [|split; [reflexivity | left; reflexivity]].
      destruct w; simpl. rewrite !app_nil_r. reflexivity.
  - rewrite (handle_unauthorized _ w Hin). simpl.
    eexists [], [_], []. split; [apply Heta|].
    split; [reflexivity|]. right. repeat split; reflexivity.
Qed.

(** X7: when the POST of a forward attempt raises an error that is no
    [requests.RequestException], the attempt ends with that error after
    the one call and writes no line; the forwarding loop ends there, so
    the recipients after it are not forwarded. *)
Theorem other_post_error_aborts_forwarding (recipient endpoint s c : string)
        (e : exn) (rest : list string) (w : World) :
  EMAIL_ENDPOINTS !! lower recipient = Some endpoint ->
  truthy endpoint = true ->
  requests_post (length (http_calls w))
                (webhook_request endpoint recipient s c) = PostRaises e ->
  is_RequestException e = false ->
  forward recipient s c w
  = (Raise e, with_calls w [webhook_request endpoint recipient s c])
  /\ forward_all s c (recipient :: rest) w
     = (Raise e, with_calls w [webhook_request endpoint recipient s c]).
Proof.
  intros Hep Htr Hpost Hother.
  assert (Hfw : forward recipient s c w
                = (Raise e, with_calls w [webhook_request endpoint recipient s c])).
  { rewrite (forward_outcome _ _ _ _ _ Hep Htr). simpl. rewrite Hpost.
    destruct e; try reflexivity. discriminate Hother. }
  split; [exact Hfw|].
  rewrite forward_all_cons.
  assert (Hc : dict_contains EMAIL_ENDPOINTS (lower recipient) = true).
  { apply dict_contains_true. eauto. }
  rewrite Hc, Hfw. reflexivity.
Qed.

(** X8: the status code of the response is not inspected: whatever the
    code, 500 as well as 200, the attempt returns normally and its line
    in the known sink is an INFO line "Forwarded to <url>: <code>". *)
Theorem any_status_code_is_logged_as_forwarded
        (recipient endpoint s c : string) (status_code : nat) (w : World) :
  EMAIL_ENDPOINTS !! lower recipient = Some endpoint ->
  truthy endpoint = true ->
  requests_post (length (http_calls w))
                (webhook_request endpoint recipient s c)
  = Response status_code ->
  forward recipient s c w
  = (OK tt,
     {| known_log := known_log w
          ++ [(INFO, "Forwarded to " ++ endpoint ++ ": "
                     ++ str_of_nat status_code)];
        unknown_log := unknown_log w;
        http_calls := http_calls w
          ++ [webhook_request endpoint recipient s c] |}).
Proof.
  intros Hep Htr Hpost.
  rewrite (forward_outcome _ _ _ _ _ Hep Htr). simpl. rewrite Hpost.
  reflexivity.
Qed.

(** X9: a message of an authorized sender without a To header, whose
    subject and body decode, ends the task with TypeError where the
    recipients are first iterated: nothing is logged, nothing is sent. *)
Theorem missing_to_header_raises (message : Message) (w : World)
        (s c : string) :
  py_in (hdr_from (headers message)) ALLOWED_SENDERS = true ->
  subject_of message = OK s ->
  content_of message = OK c ->
  hdr_to (headers message) = ToAbsent ->
  handle message w
  = (Raise (TypeError "'NoneType' object is not iterable"), w).
Proof.
  intros Hin Hs Hc Hto. apply handle_decode_failure; [exact Hin|].
  unfold decode_stage. rewrite Hs, Hc, Hto. reflexivity.
Qed.

Lemma no_equals_sign_no_encoded_word (h : string) :
  ~ In "="%char (list_ascii_of_string h) -> ecre_search h = false.
Proof.
  induction h as [|a h IH]; intros Hno; [reflexivity|].
  assert (Ha : a <> "="%char).
  { intros ->. apply Hno. left. reflexivity. }
  assert (Hh : ecre_search h = false).
  { apply IH. intros Hin. apply Hno. right. exact Hin. }
  destruct a as [[] [] [] [] [] [] [] []];
    try (exfalso; apply Ha; reflexivity); simpl; exact Hh.
Qed.

(** X10: a message of an authorized sender whose Subject value is a
    [str] (the header is ASCII text) that holds no equals sign, hence no
    encoded word, ends the task with TypeError at the subject decoder,
    before anything is logged or sent. *)
Theorem subject_without_equals_sign_raises (message : Message) (w : World)
        (h : string) :
  py_in (hdr_from (headers message)) ALLOWED_SENDERS = true ->
  hdr_subject (headers message) = Some (HeaderStr h) ->
  ~ In "="%char (list_ascii_of_string h) ->
  handle message w = (Raise (TypeError "decoding str is not supported"), w).
Proof.
  intros Hin Hsub Hno. apply handle_decode_failure; [exact Hin|].
  unfold decode_stage, decode_subject, decode_header. rewrite Hsub. simpl.
  rewrite (no_equals_sign_no_encoded_word h Hno). reflexivity.
Qed.

(** X13: a multipart message whose own content type is text/plain or
    text/html is the first part of its walk; a container has no payload
    to decode, and the extractor ends with AttributeError without
    looking at the parts inside. *)
Theorem text_typed_container_raises (message : Message) :
  is_multipart message = true ->
  is_text_type (get_content_type message) = true ->
  content_of message
  = Raise (AttributeError "'NoneType' object has no attribute 'decode'").
Proof.
  intros Hmp Htext. destruct message as [h payload|h parts];
    [discriminate Hmp|].
  unfold extract_content. simpl. rewrite Htext. reflexivity.
Qed.

(** X14: a message of an authorized sender that decodes, with one
    recipient whose lower-cased address is mapped to a non-empty URL and
    whose POST is answered: one request goes to that URL with the
    extracted content, and the known sink gets the entry of the message
    and then the "Forwarded to" line; the unknown sink gets nothing. *)
Theorem single_known_recipient_forwarded (message : Message) (w : World)
        (recipient endpoint s c : string) (status_code : nat) :
  py_in (hdr_from (headers message)) ALLOWED_SENDERS = true ->
  subject_of message = OK s ->
  content_of message = OK c ->
  hdr_to (headers message) = ToStr recipient ->
  EMAIL_ENDPOINTS !! lower recipient = Some endpoint ->
  truthy endpoint = true ->
  requests_post (length (http_calls w))
                (webhook_request endpoint recipient s c)
  = Response status_code ->
  handle message w =
  (OK tt,
   {| known_log := known_log w
        ++ [(INFO, log_entry (hdr_from (headers message)) [recipient] s c);
            (INFO, "Forwarded to " ++ endpoint ++ ": "
                   ++ str_of_nat status_code)];
      unknown_log := unknown_log w;
      http_calls := http_calls w
        ++ [{| url := endpoint;
               json := [("from", recipient); ("subject", s); ("content", c)] |}]
   |}).
Proof.
  intros Hin Hs Hc Hto Hep Htr Hpost.
  assert (Hdec : decode_stage codec_decode decode_words message
                 = OK (s, c, [recipient])).
  { apply decode_stage_ok; [assumption..|]. rewrite Hto. reflexivity. }
  assert (Hknown : is_known_recipient EMAIL_ENDPOINTS [recipient] = true).
  { apply (selected_is_known _ _ recipient); [left; reflexivity | eauto]. }
  rewrite (handle_authorized _ w _ _ _ Hin Hdec). cbv zeta. rewrite Hknown.
  rewrite forward_all_cons.
  assert (Hsel : dict_contains EMAIL_ENDPOINTS (lower recipient) = true).
  { apply dict_contains_true. eauto. }
  rewrite Hsel, (forward_outcome _ _ _ _ _ Hep Htr). simpl. rewrite Hpost.
  simpl. unfold ret, after_forward. simpl. rewrite <- app_assoc. reflexivity.
Qed.

(** *** The subject decoder on encoded words *)

Lemma decode_chunks_words (ws : list (list byte * option string))
      (ss : list string) :
  Forall2 (fun word text =>
             codec_decode (charset_or word.2 "utf-8") word.1 = OK text) ws ss ->
  decode_chunks codec_decode (map (fun word => (ChunkBytes word.1, word.2)) ws)
  = OK ss.
Proof.
  induction 1 as [|word text ws ss Hword _ IH]; simpl; [reflexivity|].
  rewrite Hword. simpl. rewrite IH. reflexivity.
Qed.

(** X15: when the Subject header holds an encoded word, the decoded
    subject is the concatenation, in order and with nothing in between,
    of the words [decode_header] returns, each decoded with its charset,
    or with UTF-8 when it has none or an empty one. *)
Theorem encoded_subject_concatenates (message : Message) (h : string)
        (ws : list (list byte * option string)) (ss : list string) :
  hdr_subject (headers message) = Some (HeaderStr h) ->
  ecre_search h = true ->
  decode_words h = OK ws ->
  Forall2 (fun word text =>
             codec_decode
               (match word.2 with
                | Some charset => if truthy charset then charset else "utf-8"
                | None => "utf-8"
                end) word.1 = OK text) ws ss ->
  subject_of message = OK (String.concat "" ss).
Proof.
  intros Hsub Henc Hwords Hall.
  unfold decode_subject, decode_header. rewrite Hsub. simpl.
  rewrite Henc, Hwords. simpl.
  rewrite (decode_chunks_words ws ss Hall). reflexivity.
Qed.

End Properties.

(** *** The subject decoder on a header without encoded words *)

Lemma plain_header_raises
      (codec_decode : string -> list byte -> result string)
      (decode_words : string -> result (list (list byte * option string)))
      (m : Message) (h : string) :
  default (HeaderStr "No subject") (hdr_subject (headers m)) = HeaderStr h ->
  ecre_search h = false ->
  decode_subject codec_decode decode_words m
  = Raise (TypeError "decoding str is not supported").
Proof.
  intros Hstr Hplain. unfold decode_subject, decode_header.
  rewrite Hstr, Hplain. reflexivity.
Qed.

(** C3 (evaluation of the code): with the Subject header absent the
    subject decoder does not yield "No subject": [decode_header] hands
    the placeholder back as a [str], and [str(_, 'utf-8')] raises
    TypeError on it; the task of such a message from an authorized
    sender ends with that error and logs nothing. *)
Theorem missing_subject_raises_TypeError :
  (forall codec_decode decode_words m,
      decode_subject codec_decode decode_words (without_subject m)
      = Raise (TypeError "decoding str is not supported"))
  /\ (forall post,
        Sample.run Sample.endpoints post (without_subject Sample.test_message)
        = (Raise (TypeError "decoding str is not supported"), empty_world)).
Proof.
  split.
  - intros codec_decode decode_words m.
    apply (plain_header_raises _ _ _ "No subject"); destruct m; reflexivity.
  - intros post. reflexivity.
Qed.

(** C1 (evaluation of the code): with the mapping keyed
    [Known@Example.com], the recipient [known@example.com] makes the
    message known (both sides are lower-cased on line 140), but the
    forwarding loop and the endpoint lookup compare the lower-cased
    recipient with the keys as written: no request is issued. *)
Theorem mixed_case_key_is_known_but_not_forwarded :
  is_known_recipient Sample.mixed_case_endpoints ["known@example.com"] = true
  /\ dict_contains Sample.mixed_case_endpoints (lower "known@example.com") = false
  /\ Sample.mixed_case_endpoints !! lower "known@example.com" = None
  /\ forall post,
      Sample.run Sample.mixed_case_endpoints post Sample.test_message
      = (OK tt,
         {| known_log :=
              [(INFO, "From: sender@example.com, To: known@example.com, "
                      ++ "Subject: Test Email thing, Size: 35 bytes")];
            unknown_log := [];
            http_calls := [] |}).
Proof.
  repeat split; try (vm_compute; reflexivity).
Qed.

(** C4 (evaluation of the code): a message whose To header lists two
    addresses, the first of them mapped, reaches the handler with the
    whole header value as one [str]; line 122 makes it the only
    recipient, no key equals it, and the message is logged once to the
    unknown sink: nothing goes to the known sink and nothing is
    forwarded to the endpoint of the mapped address. *)
Theorem two_address_to_header_is_one_recipient :
  normalize_rcpttos (hdr_to (headers Sample.two_address_message))
  = OK ["known@example.com, other@example.com"]
  /\ is_known_recipient Sample.endpoints
       ["known@example.com, other@example.com"] = false
  /\ Sample.endpoints !! lower "known@example.com"
     = Some "https://example.com/webhook"
  /\ forall post,
      Sample.run Sample.endpoints post Sample.two_address_message
      = (OK tt,
         {| known_log := [];
            unknown_log :=
              [(INFO, "From: sender@example.com, "
                      ++ "To: known@example.com, other@example.com, "
                      ++ "Subject: Test Email thing, Size: 5 bytes")];
            http_calls := [] |}).
Proof.
  repeat split; try (vm_compute; reflexivity).
Qed.

(** The Subject header with a raw 8-bit byte is a [Header] object:
    [decode_header] returns its bytes under the charset name
    'unknown-8bit', which names no codec. *)
Example raw_subject_raises_LookupError :
  forall post,
    Sample.run Sample.endpoints post Sample.raw_subject_message
    = (Raise (LookupError "unknown encoding: unknown-8bit"), empty_world).
Proof. intros post. vm_compute. reflexivity. Qed.

(** *** The statements at concrete inputs *)

Local Abbreviation sample_handle eps post :=
  (async_handle_message eps Sample.allowed Sample.codec_decode
                        Sample.decode_words post).

(** A decoding failure leaves the task body as an error, and no log
    entry is written: the body of the message is the byte 0xFF.  The task
    that [handle_message] schedules is that very body. *)
Lemma decode_failure_escapes_task :
  sample_handle Sample.endpoints Sample.post_200 Sample.undecodable_message
                empty_world
  = (Raise (UnicodeDecodeError
              ("'utf-8' codec can't decode byte 0xff in position 0: "
               ++ "invalid start byte")),
     empty_world)
  /\ is_OK (sample_handle Sample.endpoints Sample.post_200
                          Sample.undecodable_message empty_world).1 = false
  /\ map (fun task => is_OK (task empty_world).1)
         (handle_message Sample.endpoints Sample.allowed Sample.codec_decode
                         Sample.decode_words Sample.post_200
                         Sample.undecodable_message [])
     = [false].
Proof. repeat split; vm_compute; reflexivity. Qed.

Lemma task_fails_exactly_on_decode_stage_witness :
  py_in (hdr_from (headers Sample.test_message)) Sample.allowed = true
  /\ only_transport_errors Sample.post_refused
  /\ (sample_handle Sample.endpoints Sample.post_refused Sample.test_message
                    empty_world).1 = OK tt
  /\ sample_handle Sample.endpoints Sample.post_refused Sample.raw_to_message
                   empty_world
     = (Raise (TypeError "'Header' object is not iterable"), empty_world).
Proof.
  assert (Honly : only_transport_errors Sample.post_refused).
  { intros n req e H. injection H as <-. reflexivity. }
  split; [reflexivity|]. split; [exact Honly|]. split.
  - exact (task_fails_exactly_on_decode_stage
             Sample.endpoints Sample.allowed Sample.codec_decode
             Sample.decode_words Sample.post_refused Sample.test_message
             empty_world eq_refl Honly).
  - exact (task_fails_exactly_on_decode_stage
             Sample.endpoints Sample.allowed Sample.codec_decode
             Sample.decode_words Sample.post_refused Sample.raw_to_message
             empty_world eq_refl Honly).
Defined.

Lemma unauthorized_sender_dropped_witness :
  (forall a, In a Sample.allowed ->
             hdr_from (headers Sample.evil_message) <> Some a)
  /\ exists entry,
      sample_handle Sample.endpoints Sample.post_200 Sample.evil_message
                    empty_world
      = (OK tt, with_unknown empty_world [(INFO, entry)])
      /\ contains entry "unauthorized sender".
Proof.
  assert (Hne : forall a, In a Sample.allowed ->
                          hdr_from (headers Sample.evil_message) <> Some a).
  { intros a [<- | [<- | []]]; discriminate. }
  split; [exact Hne|].
  destruct (unauthorized_sender_dropped
              Sample.endpoints Sample.allowed Sample.codec_decode
              Sample.decode_words Sample.post_200 Sample.evil_message
              empty_world Hne) as (entry & Hrun & Hreason & _).
  exists entry. split; assumption.
Defined.

Lemma sender_match_is_exact_witness :
  hdr_from (headers Sample.shouting_message) = Some "Sender@Example.com"
  /\ (forall a, In a Sample.allowed -> a <> "Sender@Example.com")
  /\ sample_handle Sample.endpoints Sample.post_200 Sample.shouting_message
                   empty_world
     = (OK tt, with_unknown empty_world
          [(INFO, "Rejected email from unauthorized sender: Sender@Example.com")]).
Proof.
  assert (Hne : forall a, In a Sample.allowed -> a <> "Sender@Example.com").
  { intros a [<- | [<- | []]]; discriminate. }
  split; [reflexivity|]. split; [exact Hne|].
  exact (proj1 (sender_match_is_exact
                  Sample.endpoints Sample.allowed Sample.codec_decode
                  Sample.decode_words Sample.post_200 Sample.shouting_message
                  empty_world "Sender@Example.com" eq_refl Hne)).
Defined.

Lemma multipart_first_text_part_witness :
  is_multipart Sample.alternative_message = true
  /\ extract_content Sample.codec_decode Sample.alternative_message
     = OK "<b>hi</b>".
Proof.
  split; [reflexivity|].
  destruct (multipart_first_text_part Sample.codec_decode
              Sample.alternative_message eq_refl) as [Hfirst _].
  destruct (Hfirst [Sample.alternative_message] Sample.html_part
                   [Sample.plain_part] eq_refl) as [-> _].
  - repeat constructor.
  - reflexivity.
  - reflexivity.
Defined.

Lemma transport_failure_contained_witness :
  Sample.endpoints !! lower "known@example.com"
  = Some "https://example.com/webhook"
  /\ forward_to_webhook Sample.endpoints Sample.post_refused
       "known@example.com" "Test Email thing" "hello" empty_world
     = (OK tt,
        {| known_log :=
             [(ERROR, "Error sending to https://example.com/webhook: "
                      ++ "connection refused")];
           unknown_log := [];
           http_calls :=
             [webhook_request "https://example.com/webhook" "known@example.com"
                              "Test Email thing" "hello"] |}).
Proof.
  assert (Hep : Sample.endpoints !! lower "known@example.com"
                = Some "https://example.com/webhook")
    by (vm_compute; reflexivity).
  split; [exact Hep|].
  exact (proj1 (transport_failure_contained
                  Sample.endpoints Sample.post_refused
                  "known@example.com" "https://example.com/webhook"
                  "Test Email thing" "hello" "connection refused"
                  ["other@example.com"] empty_world Hep eq_refl eq_refl)).
Defined.

Lemma empty_endpoint_forward_is_noop_witness :
  Sample.empty_url_endpoints !! lower "known@example.com" = Some ""
  /\ is_known_recipient Sample.empty_url_endpoints ["known@example.com"] = true
  /\ sample_handle Sample.empty_url_endpoints Sample.post_200
                   Sample.test_message empty_world
     = (OK tt,
        with_known empty_world
          [(INFO, log_entry (Some "sender@example.com") ["known@example.com"]
                            "Test Email thing"
                            "This is the body of the test email.")]).
Proof.
  assert (Hep : Sample.empty_url_endpoints !! lower "known@example.com" = Some "")
    by (vm_compute; reflexivity).
  split; [exact Hep|].
  destruct (empty_endpoint_forward_is_noop
              Sample.empty_url_endpoints Sample.allowed Sample.codec_decode
              Sample.decode_words Sample.post_200 Sample.test_message
              empty_world "known@example.com" "Test Email thing"
              "This is the body of the test email." ["known@example.com"]
              eq_refl eq_refl eq_refl eq_refl (or_introl eq_refl) Hep)
    as (Hknown & Hrun & _ & Hskip).
  split; [exact Hknown|].
  rewrite Hrun, Hskip. reflexivity.
Defined.

(** *** Start-up and the handler together *)

(** X11: when the configuration file is missing, or holds no or an empty
    [allowed_senders] list, start-up succeeds, and with the globals it
    leaves every message is rejected as from an unauthorized sender: one
    line in the unknown sink, nothing else. *)
Theorem empty_allow_list_rejects_every_message
        (environ : gmap string string) (open_json : string -> FileState)
        (codec_decode : string -> list byte -> result string)
        (decode_words : string -> result (list (list byte * option string)))
        (requests_post : nat -> Request -> PostOutcome)
        (message : Message) (w : World) :
  open_json (config_file environ) = FileNotFound
  \/ (exists config,
        open_json (config_file environ) = LoadsObject config
        /\ default [] (cfg_allowed_senders config) = []) ->
  exists g,
    (load_config environ open_json).1 = OK g
    /\ async_handle_message (g_EMAIL_ENDPOINTS g) (g_ALLOWED_SENDERS g)
         codec_decode decode_words requests_post message w
       = (OK tt,
          {| known_log := known_log w;
             unknown_log := unknown_log w
               ++ [(INFO, "Rejected email from unauthorized sender: "
                          ++ format_opt (hdr_from (headers message)))];
             http_calls := http_calls w |}).
Proof.
  assert (Hnone : forall x, py_in x [] = false) by (intros [f|]; reflexivity).
  intros [Hmissing | (config & Hfile & Hempty)]; unfold load_config.
  - rewrite Hmissing. eexists. split; [reflexivity|]. simpl.
    apply handle_unauthorized. apply Hnone.
  - rewrite Hfile. eexists. split; [reflexivity|]. simpl.
    rewrite Hempty. apply handle_unauthorized. apply Hnone.
Qed.

(** X12: when the file loads as an object that follows the documented
    format (each of the two keys absent or of its documented type),
    start-up succeeds; the mapping it leaves answers a lookup with a
    URL exactly for the items of the file's [email_endpoints] object,
    the allow-list is the file's [allowed_senders] list, a missing key
    stands for an empty one, and the lines printed are, in this order,
    the heading of the mappings, one line [  <address> -> <url>] for
    each item in the order of the file, the heading of the senders and
    one line [  <sender>] for each sender in the order of the file. *)
Theorem loaded_config_round_trip
        (environ : gmap string string) (open_json : string -> FileState)
        (config : ConfigObject) :
  open_json (config_file environ) = LoadsObject config ->
  NoDup (default [] (cfg_email_endpoints config)).*1 ->
  exists g,
    load_config environ open_json
    = (OK g,
       ("Loaded email configurations:"
          :: map (fun item => String.append "  "
                                (String.append item.1
                                   (String.append " -> " item.2)))
                 (default [] (cfg_email_endpoints config))
          ++ "Allowed senders:"
          :: map (fun sender => String.append "  " sender)
                 (default [] (cfg_allowed_senders config)))%list)
    /\ (forall k v,
          g_EMAIL_ENDPOINTS g !! k = Some v
          <-> In (k, v) (default [] (cfg_email_endpoints config)))
    /\ g_ALLOWED_SENDERS g = default [] (cfg_allowed_senders config)
    /\ length (load_config environ open_json).2
       = 2 + length (default [] (cfg_email_endpoints config))
         + length (default [] (cfg_allowed_senders config)).
Proof.
  intros Hfile Hnodup. unfold load_config. rewrite Hfile.
  eexists. split; [reflexivity|]. simpl. split; [|split; [reflexivity|]].
  - intros k v. rewrite <- list_elem_of_In.
    symmetry. apply elem_of_list_to_map. exact Hnodup.
  - rewrite length_app. simpl. rewrite !length_map. lia.
Qed.

(** *** The further statements at concrete inputs *)

Lemma sample_endpoints_key (address : string) :
  is_Some (Sample.endpoints !! address) -> address = "known@example.com".
Proof.
  intros [v Hv]. unfold Sample.endpoints in Hv.
  apply lookup_singleton_Some in Hv as [<- _]. reflexivity.
Defined.

Lemma unknown_message_logged_once_witness :
  sample_handle Sample.endpoints Sample.post_200 Sample.stranger_message
                empty_world
  = (OK tt,
     {| known_log := [];
        unknown_log :=
          [(INFO, "From: sender@example.com, To: nobody@example.com, "
                  ++ "Subject: Test Email thing, Size: 5 bytes")];
        http_calls := [] |}).
Proof.
  apply (unknown_message_logged_once
           Sample.endpoints Sample.allowed Sample.codec_decode
           Sample.decode_words Sample.post_200 Sample.stranger_message
           empty_world "Test Email thing" "hello" ["nobody@example.com"]);
    try reflexivity.
  intros recipient address [<- | []] Hkey.
  rewrite (sample_endpoints_key address Hkey). discriminate.
Defined.

Lemma lower_case_keys_make_tests_agree_witness :
  (forall k, is_Some (Sample.endpoints !! k) -> lower k = k)
  /\ is_known_recipient Sample.endpoints ["Known@Example.com"]
     = existsb (fun recipient => dict_contains Sample.endpoints (lower recipient))
               ["Known@Example.com"].
Proof.
  assert (Hlow : forall k, is_Some (Sample.endpoints !! k) -> lower k = k).
  { intros k Hk. rewrite (sample_endpoints_key k Hk). reflexivity. }
  split; [exact Hlow|].
  exact (lower_case_keys_make_tests_agree Sample.endpoints
           ["Known@Example.com"] Hlow).
Defined.

Lemma refused_is_transport_error : only_transport_errors Sample.post_refused.
Proof. intros n req e H. injection H as <-. reflexivity. Defined.


Lemma known_log_has_one_line_per_post_witness :
  exists outcomes,
    known_log (sample_handle Sample.endpoints Sample.post_refused
                             Sample.test_message empty_world).2
    = (INFO, log_entry (Some "sender@example.com") ["known@example.com"]
                       "Test Email thing"
                       "This is the body of the test email.") :: outcomes
    /\ length outcomes = 1.
Proof.
  destruct (known_log_has_one_line_per_post
              Sample.endpoints Sample.allowed Sample.codec_decode
              Sample.decode_words Sample.post_refused
              Sample.test_message empty_world
              "Test Email thing" "This is the body of the test email."
              ["known@example.com"]
              eq_refl eq_refl refused_is_transport_error eq_refl)
    as (outcomes & Hlog & Hlen & _).
  exists outcomes. split; [exact Hlog | exact Hlen].
Defined.

Lemma other_post_error_aborts_forwarding_witness :
  is_RequestException (OtherError "ValueError" "broken") = false
  /\ forward_matching Sample.endpoints Sample.post_broken
       "Test Email thing" "hello"
       ["known@example.com"; "KNOWN@example.com"] empty_world
     = (Raise (OtherError "ValueError" "broken"),
        with_calls empty_world
          [webhook_request "https://example.com/webhook" "known@example.com"
                           "Test Email thing" "hello"]).
Proof.
  split; [reflexivity|].
  exact (proj2 (other_post_error_aborts_forwarding
                  Sample.endpoints Sample.post_broken
                  "known@example.com" "https://example.com/webhook"
                  "Test Email thing" "hello"
                  (OtherError "ValueError" "broken")
                  ["KNOWN@example.com"] empty_world
                  eq_refl eq_refl eq_refl eq_refl)).
Defined.

Lemma any_status_code_is_logged_as_forwarded_witness :
  forward_to_webhook Sample.endpoints Sample.post_500
    "known@example.com" "Test Email thing" "hello" empty_world
  = (OK tt,
     {| known_log :=
          [(INFO, "Forwarded to https://example.com/webhook: 500")];
        unknown_log := [];
        http_calls :=
          [webhook_request "https://example.com/webhook" "known@example.com"
                           "Test Email thing" "hello"] |}).
Proof.
  exact (any_status_code_is_logged_as_forwarded
           Sample.endpoints Sample.post_500
           "known@example.com" "https://example.com/webhook"
           "Test Email thing" "hello" 500 empty_world
           eq_refl eq_refl eq_refl).
Defined.

Lemma missing_to_header_raises_witness :
  hdr_to (headers Sample.no_to_message) = ToAbsent
  /\ sample_handle Sample.endpoints Sample.post_200 Sample.no_to_message
                   empty_world
     = (Raise (TypeError "'NoneType' object is not iterable"), empty_world).
Proof.
  split; [reflexivity|].
  exact (missing_to_header_raises
           Sample.endpoints Sample.allowed Sample.codec_decode
           Sample.decode_words Sample.post_200 Sample.no_to_message
           empty_world "Test Email thing" "hello"
           eq_refl eq_refl eq_refl eq_refl).
Defined.

Lemma subject_without_equals_sign_raises_witness :
  ~ In "="%char (list_ascii_of_string "Test Email thing")
  /\ sample_handle Sample.endpoints Sample.post_200
                   Sample.plain_subject_message empty_world
     = (Raise (TypeError "decoding str is not supported"), empty_world).
Proof.
  assert (Hno : ~ In "="%char (list_ascii_of_string "Test Email thing")).
  { simpl. intuition discriminate. }
  split; [exact Hno|].
  exact (subject_without_equals_sign_raises
           Sample.endpoints Sample.allowed Sample.codec_decode
           Sample.decode_words Sample.post_200 Sample.plain_subject_message
           empty_world "Test Email thing" eq_refl eq_refl Hno).
Defined.

Lemma empty_allow_list_rejects_every_message_witness :
  Sample.empty_directory (config_file ∅) = FileNotFound
  /\ exists g,
      (load_config ∅ Sample.empty_directory).1 = OK g
      /\ async_handle_message (g_EMAIL_ENDPOINTS g) (g_ALLOWED_SENDERS g)
           Sample.codec_decode Sample.decode_words Sample.post_200
           Sample.test_message empty_world
         = (OK tt,
            {| known_log := [];
               unknown_log :=
                 [(INFO, "Rejected email from unauthorized sender: "
                         ++ "sender@example.com")];
               http_calls := [] |}).
Proof.
  split; [reflexivity|].
  exact (empty_allow_list_rejects_every_message
           ∅ Sample.empty_directory Sample.codec_decode Sample.decode_words
           Sample.post_200 Sample.test_message empty_world
           (or_introl eq_refl)).
Defined.

Lemma loaded_config_round_trip_witness :
  exists g,
    load_config ∅ Sample.directory
    = (OK g,
       ["Loaded email configurations:";
        "  known@example.com -> https://example.com/webhook";
        "Allowed senders:";
        "  allowed-sender@example.com";
        "  another-sender@example.com"])
    /\ (forall k v,
          g_EMAIL_ENDPOINTS g !! k = Some v
          <-> In (k, v) [("known@example.com", "https://example.com/webhook")])
    /\ g_ALLOWED_SENDERS g
       = ["allowed-sender@example.com"; "another-sender@example.com"]
    /\ length (load_config ∅ Sample.directory).2 = 5.
Proof.
  apply (loaded_config_round_trip ∅ Sample.directory Sample.docstring_config).
  - reflexivity.
  - simpl. apply NoDup_singleton.
Defined.

Lemma text_typed_container_raises_witness :
  is_multipart Sample.untyped_container = true
  /\ extract_content Sample.codec_decode Sample.untyped_container
     = Raise (AttributeError "'NoneType' object has no attribute 'decode'").
Proof.
  split; [reflexivity|].
  exact (text_typed_container_raises Sample.codec_decode
           Sample.untyped_container eq_refl eq_refl).
Defined.

Lemma single_known_recipient_forwarded_witness :
  sample_handle Sample.endpoints Sample.post_500 Sample.test_message
                empty_world
  = (OK tt,
     {| known_log :=
          [(INFO, log_entry (Some "sender@example.com") ["known@example.com"]
                            "Test Email thing"
                            "This is the body of the test email.");
           (INFO, "Forwarded to https://example.com/webhook: 500")];
        unknown_log := [];
        http_calls :=
          [{| url := "https://example.com/webhook";
              json := [("from", "known@example.com");
                       ("subject", "Test Email thing");
                       ("content", "This is the body of the test email.")] |}]
     |}).
Proof.
  exact (single_known_recipient_forwarded
           Sample.endpoints Sample.allowed Sample.codec_decode
           Sample.decode_words Sample.post_500 Sample.test_message
           empty_world "known@example.com" "https://example.com/webhook"
           "Test Email thing" "This is the body of the test email." 500
           eq_refl eq_refl eq_refl eq_refl eq_refl eq_refl eq_refl).
Defined.

Lemma encoded_subject_concatenates_witness :
  ecre_search Sample.test_subject = true
  /\ decode_subject Sample.codec_decode Sample.decode_words Sample.test_message
     = OK "Test Email thing".
Proof.
  split; [reflexivity|].
  apply (encoded_subject_concatenates
           Sample.codec_decode Sample.decode_words Sample.test_message
           Sample.test_subject
           [(list_byte_of_string "Test Email thing", Some "utf-8")]
           ["Test Email thing"]).
  - reflexivity.
  - reflexivity.
  - reflexivity.
  - repeat constructor.
Defined.
